(** * data_help.modelling: classifier training reports and feature-importance plots

    A shallow embedding of [src/data_help/modelling.py].  The module is a thin
    layer over scikit-learn, pandas, matplotlib and seaborn: what it decides
    itself is which collaborator is called, in which order, with which
    arguments, what is printed, and which exception leaves the call.  The
    collaborators are an interface ([Collaborators]); the module's own control
    flow, name resolution and argument checks are embedded as they are
    written. *)

From stdpp Require Import base strings gmap list.
From Stdlib Require Import ZArith QArith.

Open Scope string_scope.
Open Scope list_scope.
Open Scope Z_scope.

(** ** Python values and exceptions *)

(** The exceptions that can leave the module.  [ValueError] is what the
    module raises itself; the others come from the interpreter (an unbound
    name, a missing attribute, a call that does not match the signature) or
    from a collaborator. *)
Inductive Exn : Type :=
| ValueError (msg : string)
| NameError (name : string)
| TypeError (msg : string)
| AttributeError (type_name attr : string)
| OtherError (kind msg : string).

(** Values a name or an argument can be bound to, as far as the module
    inspects them: [isinstance(v, list)] and [len(v)]. *)
Inductive pyval : Type :=
| PyNone
| PyList (items : list string)
| PyStr (s : string)
| PyInt (n : Z)
| PyFunction (qualname : string)
| PyModule (name : string)
| PyTypingForm (name : string).

(** [isinstance(v, list)] *)
Definition isinstance_list (v : pyval) : bool :=
  match v with PyList _ => true | _ => false end.

(** The items of a list (read only once [isinstance_list] has held). *)
Definition list_items (v : pyval) : list string :=
  match v with PyList items => items | _ => [] end.

(** The four metric functions the module imports from [sklearn.metrics] and
    hands to [cross_val_score] as [scoring]. *)
Inductive metric : Type := accuracy_score | f1_score | precision_score | recall_score.

Definition newline : string := String (Ascii.ascii_of_nat 10) EmptyString.

(** ** Name resolution *)

(** The module's global namespace once its top-level statements have run:
    the imported names and the two functions it defines.  (The dunder names
    every module has, such as [__name__], are left out.) *)
Definition module_globals : gmap string pyval :=
  list_to_map
    [ ("cross_val_score", PyFunction "sklearn.model_selection.cross_val_score");
      ("accuracy_score", PyFunction "sklearn.metrics.accuracy_score");
      ("f1_score", PyFunction "sklearn.metrics.f1_score");
      ("precision_score", PyFunction "sklearn.metrics.precision_score");
      ("recall_score", PyFunction "sklearn.metrics.recall_score");
      ("confusion_matrix", PyFunction "sklearn.metrics.confusion_matrix");
      ("classification_report", PyFunction "sklearn.metrics.classification_report");
      ("roc_curve", PyFunction "sklearn.metrics.roc_curve");
      ("roc_auc_score", PyFunction "sklearn.metrics.roc_auc_score");
      ("plt", PyModule "matplotlib.pyplot");
      ("Union", PyTypingForm "typing.Union");
      ("pd", PyModule "pandas");
      ("np", PyModule "numpy");
      ("sns", PyModule "seaborn");
      ("platform", PyModule "platform");
      ("train_classifier", PyFunction "data_help.modelling.train_classifier");
      ("feature_importance", PyFunction "data_help.modelling.feature_importance") ].

(** The builtins the module refers to; it is searched after the globals. *)
Definition builtins : gmap string pyval :=
  list_to_map
    [ ("hasattr", PyFunction "hasattr");
      ("isinstance", PyFunction "isinstance");
      ("len", PyFunction "len");
      ("list", PyFunction "list");
      ("print", PyFunction "print");
      ("ValueError", PyFunction "ValueError") ].

(** A name that is not local to a function: globals first, then builtins,
    and [NameError] when neither binds it. *)
Definition resolve (globals : gmap string pyval) (name : string) : Exn + pyval :=
  match globals !! name with
  | Some v => inr v
  | None =>
      match builtins !! name with
      | Some v => inr v
      | None => inl (NameError name)
      end
  end.

Section Modelling.

(** Non-null array-likes (DataFrame, Series, ndarray), estimator objects
    with their current state, numpy floats, and the array of per-fold
    scores. *)
Context {Data Obj Score Scores : Type}.

(** What the module does to the outside world, in program order. *)
Inductive Event : Type :=
| Call_cross_val_score (X y : Data) (scoring : metric) (cv : Z)
| Call_fit (X y : Data)
| Call_predict (X : Data)
| Call_predict_proba (X : Data)
| Call_roc_curve (y_true y_score : Data)
| Call_roc_auc_score (y_true y_score : Data)
| Call_print (text : string)
| Plt_switch_backend (newbackend : string)
| Plt_plot_curve (xs ys : Data) (color label : string)
| Plt_plot_line (xs ys : list Z) (color linestyle : string)
| Plt_xlabel (text : string)
| Plt_ylabel (text : string)
| Plt_title (text : string)
| Plt_subplots.

(** The collaborators.  A method of the estimator returns its result (or the
    exception it raised) together with the state the object is left in. *)
Class Collaborators : Type := {
  (* the estimator object *)
  type_name : Obj -> string;
  hasattr : Obj -> string -> bool;
  fit : Obj -> Data -> Data -> (Exn + unit) * Obj;
  predict : Obj -> Data -> (Exn + Data) * Obj;
  predict_proba : Obj -> Data -> (Exn + Data) * Obj;
  feature_importances_ : Obj -> list Score;
  (* sklearn.model_selection, sklearn.metrics *)
  cross_val_score :
    option Obj -> Data -> Data -> metric -> Z -> (Exn + Scores) * option Obj;
  classification_report : Data -> Data -> Exn + string;
  confusion_matrix : Data -> Data -> Exn + Data;
  roc_curve : Data -> Data -> Exn + (Data * Data * Data);
  roc_auc_score : Data -> Data -> Exn + Score;
  (* numpy: [a.mean()], [a.std()] (ddof = 0), [a[:, 1]], [str(a)] and the
     format specification [.nf] *)
  mean : Scores -> Score;
  std : Scores -> Score;
  column_1 : Data -> Exn + Data;
  str_of_data : Data -> string;
  format_f : nat -> Score -> string;
  (* pandas: [DataFrame.sort_values(by='importance', ascending=False)] *)
  sort_values_desc : list (string * Score) -> list (string * Score);
  (* matplotlib: the body of [switch_backend(newbackend)] *)
  load_backend : string -> Exn + unit
}.

Context `{Collaborators}.

(** ** Effects: the estimator's state, the trace, exceptions *)

(** A computation starts from the estimator the caller passed ([None] is
    Python's [None]) and ends with a result or an exception, the estimator
    as it is left, and the events it caused.  An exception keeps the state
    and the events reached so far. *)
Definition Outcome (A : Type) : Type := (Exn + A) * option Obj * list Event.

Definition M (A : Type) : Type := option Obj -> Outcome A.

Definition result {A} (out : Outcome A) : Exn + A := out.1.1.
Definition estimator_after {A} (out : Outcome A) : option Obj := out.1.2.
Definition trace {A} (out : Outcome A) : list Event := out.2.

Definition pure {A} (a : A) : M A := fun est => (inr a, est, []).

Definition raise {A} (e : Exn) : M A := fun est => (inl e, est, []).

Definition bind {A B} (m : M A) (k : A -> M B) : M B :=
  fun est =>
    let '(r, est1, t1) := m est in
    match r with
    | inl e => (inl e, est1, t1)
    | inr a => let '(r2, est2, t2) := k a est1 in (r2, est2, t1 ++ t2)
    end.

Definition emit (ev : Event) : M unit := fun est => (inr tt, est, [ev]).

(** A collaborator that may raise but touches no state. *)
Definition lift {A} (r : Exn + A) : M A := fun est => (r, est, []).

#[global] Instance M_ret : MRet M := @pure.
#[global] Instance M_bind : MBind M := fun A B k m => bind m k.

(** [print(text)] *)
Definition print (text : string) : M unit := emit (Call_print text).

(** [hasattr(estimator, attr)]: [None] has none of the attributes the module
    asks for. *)
Definition exposes (estimator : option Obj) (attr : string) : bool :=
  match estimator with
  | None => false
  | Some o => hasattr o attr
  end.

Definition py_hasattr (attr : string) : M bool :=
  fun est => (inr (exposes est attr), est, []).

(** [estimator.attr(args)]: the attribute is looked up first; the call logs
    [ev] and runs the method on the object. *)
Definition call_method {A} (attr : string) (ev : Event)
    (method : Obj -> (Exn + A) * Obj) : M A :=
  fun est =>
    match est with
    | None => (inl (AttributeError "NoneType" attr), None, [])
    | Some o =>
        if hasattr o attr
        then let '(r, o') := method o in (r, Some o', [ev])
        else (inl (AttributeError (type_name o) attr), Some o, [])
    end.

(** ** train_classifier *)

Definition scorers : list (string * metric) :=
  [ ("Accuracy", accuracy_score);
    ("F1-score", f1_score);
    ("Precision", precision_score);
    ("Recall", recall_score) ].

(** [f'{metric_name}: {cv_score.mean():.4f} +/- {cv_score.std():.4f}'] *)
Definition report_line (metric_name : string) (cv_score : Scores) : string :=
  metric_name +:+ ": " +:+ format_f 4 (mean cv_score)
              +:+ " +/- " +:+ format_f 4 (std cv_score).

(** [cross_val_score(estimator, X_train, y_train, scoring=scorer, cv=cv)] *)
Definition call_cross_val_score (X y : Data) (scorer : metric) (cv : Z) : M Scores :=
  fun est =>
    let '(r, est') := cross_val_score est X y scorer cv in
    (r, est', [Call_cross_val_score X y scorer cv]).

(** The [for metric_name, scorer in scorers] loop. *)
Fixpoint cross_validation_loop (todo : list (string * metric))
    (X_train y_train : Data) (cv : Z) : M unit :=
  match todo with
  | [] => pure tt
  | (metric_name, scorer) :: rest =>
      cv_score ← call_cross_val_score X_train y_train scorer cv;
      print (report_line metric_name cv_score);;
      cross_validation_loop rest X_train y_train cv
  end.

(** The [if hasattr(estimator, "predict_proba")] block. *)
Definition roc_plot (X_val y_val : Data) : M unit :=
  proba ← call_method "predict_proba" (Call_predict_proba X_val)
             (fun o => predict_proba o X_val);
  y_pred_proba ← lift (column_1 proba);
  emit (Call_roc_curve y_val y_pred_proba);;
  curve ← lift (roc_curve y_val y_pred_proba);
  let '(fpr, tpr, _) := curve in
  emit (Call_roc_auc_score y_val y_pred_proba);;
  roc_auc ← lift (roc_auc_score y_val y_pred_proba);
  emit (Plt_plot_curve fpr tpr "darkorange"
          ("ROC curve (AUC = " +:+ format_f 2 roc_auc +:+ ")"));;
  emit (Plt_plot_line [0; 1] [0; 1] "navy" "--");;
  emit (Plt_xlabel "False Positive Rate");;
  emit (Plt_ylabel "True Positive Rate");;
  emit (Plt_title "Receiver Operating Characteristic Curve").

(** The [else] branch: fit once, report on the validation data. *)
Definition single_fit (X_train y_train X_val y_val : Data) : M unit :=
  call_method "fit" (Call_fit X_train y_train) (fun o => fit o X_train y_train);;
  y_pred ← call_method "predict" (Call_predict X_val) (fun o => predict o X_val);
  report ← lift (classification_report y_val y_pred);
  print report;;
  cm ← lift (confusion_matrix y_val y_pred);
  print ("Confusion Matrix:" +:+ newline +:+ " " +:+ str_of_data cm);;
  has_proba ← py_hasattr "predict_proba";
  if has_proba : bool then roc_plot X_val y_val else pure tt.

(** [if arg is None: raise ValueError("<arg> is None")] *)
Definition require_not_none (arg_name : string) (arg : option Data) : M Data :=
  match arg with
  | None => raise (ValueError (arg_name +:+ " is None"))
  | Some d => pure d
  end.

Definition train_classifier (X_train y_train X_val y_val : option Data)
    (estimator : option Obj) (cross_validate : bool) (cv : Z) : Outcome unit :=
  (xt ← require_not_none "X_train" X_train;
   yt ← require_not_none "y_train" y_train;
   xv ← require_not_none "X_val" X_val;
   yv ← require_not_none "y_val" y_val;
   if cross_validate
   then cross_validation_loop scorers xt yt cv
   else single_fit xt yt xv yv) estimator.

(** ** feature_importance *)

(** The axes the chart is drawn on, and the figure that holds them.  A bar
    stands at a feature name and carries the importances of the table rows
    it is drawn from: seaborn draws it at their mean. *)
Record Axes : Type := {
  bars : list (string * list Score);
  xtick_rotation : option Z;
  title : string
}.

Record Figure : Type := { fig_axes : Axes }.

Definition empty_axes : Axes :=
  {| bars := []; xtick_rotation := None; title := "" |}.

(** A row of the table joins the bar of its name, or opens a new bar after
    the ones there are. *)
Fixpoint add_row (name : string) (importance : Score)
    (levels : list (string * list Score)) : list (string * list Score) :=
  match levels with
  | [] => [(name, [importance])]
  | (level, rows) :: rest =>
      if String.eqb level name
      then (level, rows ++ [importance]) :: rest
      else (level, rows) :: add_row name importance rest
  end.

(** The rows of the table by feature name: one level per distinct name, in
    the order in which the names first appear. *)
Definition group_rows (feats_imp : list (string * Score))
    : list (string * list Score) :=
  foldl (fun levels row => add_row row.1 row.2 levels) [] feats_imp.

(** [sns.barplot(x='features', y='importance', data=feats_imp, ax=ax)]: one
    bar per distinct feature name, aggregating the rows that share it. *)
Definition barplot (feats_imp : list (string * Score)) (ax : Axes) : Axes :=
  {| bars := group_rows feats_imp;
     xtick_rotation := xtick_rotation ax; title := title ax |}.

(** [ax.set_xticklabels(ax.get_xticklabels(), rotation=...)] *)
Definition set_xticklabels (rotation : Z) (ax : Axes) : Axes :=
  {| bars := bars ax; xtick_rotation := Some rotation; title := title ax |}.

(** [ax.set_title(...)] *)
Definition set_title (text : string) (ax : Axes) : Axes :=
  {| bars := bars ax; xtick_rotation := xtick_rotation ax; title := text |}.

(** [estimator.feature_importances_], read once [hasattr] has said it is
    there. *)
Definition get_feature_importances : M (list Score) :=
  fun est =>
    match est with
    | None => (inl (AttributeError "NoneType" "feature_importances_"), est, [])
    | Some o => (inr (feature_importances_ o), est, [])
    end.

Definition no_importances_msg : string :=
  "The estimator does not have a 'feature_importances_' attribute.".

Definition bad_col_names_msg : string :=
  "The 'col_names' argument should be a list of the same length as the feature importances.".

(** Lines 111 to 119: the table, its sort, the chart; [names] are the
    items of what [col_names] is bound to. *)
Definition importance_chart (names : list string) (importances : list Score)
    : M (Figure * Axes) :=
  let feats_imp := zip names importances in
  let feats_imp := sort_values_desc feats_imp in
  emit Plt_subplots;;
  let ax := barplot feats_imp empty_axes in
  let ax := set_xticklabels 90 ax in
  let ax := set_title "Feature importance plot" ax in
  pure ({| fig_axes := ax |}, ax).

(** [not isinstance(col_names, list) or
     len(col_names) != len(estimator.feature_importances_)]: the right
    operand is evaluated only for a list. *)
Definition names_mismatch (col_names : pyval) : M bool :=
  if negb (isinstance_list col_names) then pure true
  else
    importances ← get_feature_importances;
    pure (negb (length (list_items col_names) =? length importances)%nat).

(** The function, run with [globals] as the module namespace.  Its
    parameter is called [col_name]; the body never reads it and refers to
    [col_names], which is not a local name and is resolved in [globals]. *)
Definition feature_importance_in (globals : gmap string pyval)
    (estimator : option Obj) (col_name : pyval) : Outcome (Figure * Axes) :=
  (has ← py_hasattr "feature_importances_";
   if negb has then raise (ValueError no_importances_msg) else
   col_names ← lift (resolve globals "col_names");
   mismatch ← names_mismatch col_names;
   if mismatch : bool then raise (ValueError bad_col_names_msg) else
   importances ← get_feature_importances;
   importance_chart (list_items col_names) importances) estimator.

Definition feature_importance : option Obj -> pyval -> Outcome (Figure * Axes) :=
  feature_importance_in module_globals.

(** ** Module level: the plotting backend *)

(** A call of [plt.switch_backend]: matplotlib declares it as
    [def switch_backend(newbackend)], one required positional parameter;
    binding the arguments comes before the body. *)
Definition plt_switch_backend (args : list string) : M unit :=
  match args with
  | [] =>
      raise (TypeError
        "switch_backend() missing 1 required positional argument: 'newbackend'")
  | [newbackend] =>
      emit (Plt_switch_backend newbackend);;
      lift (load_backend newbackend)
  | _ :: _ :: _ =>
      raise (TypeError "switch_backend() takes 1 positional argument")
  end.

(** The top-level [if platform.system() == "Darwin"] statement, run when the
    module is imported; [system] is what [platform.system()] returns.  No
    estimator exists yet. *)
Definition import_module (system : string) : Outcome unit :=
  (if String.eqb system "Darwin"
   then plt_switch_backend []
   else plt_switch_backend ["Agg"]) None.

End Modelling.

Arguments Event : clear implicits.
Arguments Collaborators : clear implicits.
Arguments Axes : clear implicits.
Arguments Figure : clear implicits.


(** ** A test double for the collaborators

    A majority-class classifier over integer labels, with exact rational
    scores, on which the module can be run on concrete inputs. *)
Module Majority.

Record classifier : Type := {
  learned : option Z;                 (* the label [fit] has settled on *)
  proba : bool;                       (* does it offer [predict_proba]? *)
  importances : option (list Q)       (* [feature_importances_], if any *)
}.

Definition occurrences (c : Z) (y : list Z) : nat :=
  length (filter (fun l => l = c) y).

(** The most frequent label, the earliest one on a tie. *)
Definition majority (y : list Z) : option Z :=
  foldr (fun c best =>
           match best with
           | Some b => if (occurrences b y <? occurrences c y)%nat
                       then Some c else
                       if (occurrences c y =? occurrences b y)%nat
                       then Some c else Some b
           | None => Some c
           end) None y.

Definition ratio (n d : nat) : Q :=
  match d with
  | O => 0%Q
  | S _ => Qred (Z.of_nat n # Pos.of_nat d)
  end.

(** The name of a metric function of [sklearn.metrics]. *)
Definition function_name (m : metric) : string :=
  match m with
  | accuracy_score => "accuracy_score"
  | f1_score => "f1_score"
  | precision_score => "precision_score"
  | recall_score => "recall_score"
  end.

(** What scikit-learn answers to a metric function given as [scoring]: a
    scorer takes the estimator first, a function of [sklearn.metrics] does
    not, and is refused. *)
Definition not_a_scorer (m : metric) : Exn :=
  ValueError ("scoring value <function " +:+ function_name m
              +:+ "> looks like it is a metric function rather than a scorer").

(** [cross_val_score] as scikit-learn checks its arguments: the estimator,
    the number of folds, then [scoring], which here is always one of the bare
    metric functions.  The estimator it is given is left alone. *)
Definition k_fold (est : option classifier) (X y : list Z) (m : metric) (cv : Z)
    : (Exn + list Q) * option classifier :=
  match est with
  | None => (inl (TypeError "estimator should be an estimator implementing 'fit'"), est)
  | Some _ =>
      if cv <? 2 then (inl (ValueError "k-fold needs at least 2 folds"), est)
      else (inl (not_a_scorer m), est)
  end.

Definition Qsum (l : list Q) : Q := foldr Qplus 0%Q l.

Definition Qmean (l : list Q) : Q := Qred (Qsum l / inject_Z (Z.of_nat (length l))).

(** The population standard deviation, its square root taken to six
    decimals. *)
Definition Qstd (l : list Q) : Q :=
  let mu := Qmean l in
  let var := Qmean ((fun x => (x - mu) * (x - mu))%Q <$> l) in
  Qred (Z.sqrt (Qnum var * 10 ^ 12 / Z.pos (Qden var)) # 1000000).

Fixpoint digits (fuel : nat) (n : Z) (acc : string) : string :=
  match fuel with
  | O => acc
  | S fuel' =>
      let acc' := String (Ascii.ascii_of_nat (48 + Z.to_nat (n mod 10))) acc in
      if n <? 10 then acc' else digits fuel' (n / 10) acc'
  end.

Definition decimal (n : Z) : string := digits (S (Z.to_nat (Z.log2 n))) n "".

Fixpoint pad_left (width : nat) (s : string) : string :=
  if (String.length s <? width)%nat
  then match width with
       | O => s
       | S w => "0" +:+ pad_left w s
       end
  else s.

(** [n] decimals of a non-negative rational, rounded half up. *)
Definition fixed (n : nat) (q : Q) : string :=
  let scale := 10 ^ Z.of_nat n in
  let units := (2 * Qnum q * scale + Z.pos (Qden q)) / (2 * Z.pos (Qden q)) in
  decimal (units / scale) +:+ "." +:+ pad_left n (decimal (units mod scale)).

(** A stable insertion sort, largest score first. *)
Fixpoint insert_desc (x : string * Q) (sorted : list (string * Q)) : list (string * Q) :=
  match sorted with
  | [] => [x]
  | y :: rest =>
      if Qle_bool y.2 x.2 then x :: y :: rest else y :: insert_desc x rest
  end.

Definition sort_desc (t : list (string * Q)) : list (string * Q) :=
  foldr insert_desc [] t.

#[global] Instance double : Collaborators (list Z) classifier Q (list Q) := {|
  type_name := fun _ => "MajorityClassifier";
  hasattr := fun o attr =>
    if String.eqb attr "fit" then true
    else if String.eqb attr "predict" then true
    else if String.eqb attr "predict_proba" then proba o
    else if String.eqb attr "feature_importances_" then bool_decide (is_Some (importances o))
    else false;
  fit := fun o X y =>
    match majority y with
    | Some c => (inr tt, {| learned := Some c; proba := proba o; importances := importances o |})
    | None => (inl (ValueError "cannot fit on no samples"), o)
    end;
  predict := fun o X =>
    match learned o with
    | Some c => (inr ((fun _ => c) <$> X), o)
    | None => (inl (OtherError "NotFittedError" "call fit first"), o)
    end;
  predict_proba := fun o X =>
    match learned o with
    | Some c => (inr ((fun _ => if c =? 1 then 1 else 0) <$> X), o)
    | None => (inl (OtherError "NotFittedError" "call fit first"), o)
    end;
  feature_importances_ := fun o => default [] (importances o);
  cross_val_score := k_fold;
  classification_report := fun y_true y_pred =>
    inr ("accuracy " +:+ fixed 2 (ratio (length (filter (fun p => p.1 = p.2) (zip y_true y_pred)))
                                       (length y_true)));
  confusion_matrix := fun y_true y_pred =>
    inr ((fun t => Z.of_nat (length (filter (fun p => p.1 = t ∧ p.2 = 1) (zip y_true y_pred))))
           <$> [0; 1]);
  roc_curve := fun y_true y_score => inr ([0; 1], [0; 1], [1; 0]);
  roc_auc_score := fun y_true y_score => inr (1 # 2)%Q;
  mean := Qmean;
  std := Qstd;
  column_1 := fun d => inr d;
  str_of_data := fun d => String.concat " " (decimal <$> d);
  format_f := fixed;
  sort_values_desc := sort_desc;
  load_backend := fun _ => inr tt
|}.

End Majority.

(** ** Sample inputs *)
Module Sample.
Import Majority.

Definition X : list Z := [1; 2; 3; 4; 5; 6; 7; 8; 9; 10].
Definition y : list Z := [1; 0; 1; 1; 0; 1; 1; 1; 0; 1].

(** An unfitted classifier without [predict_proba] and without importances. *)
Definition clf : classifier :=
  {| learned := None; proba := false; importances := None |}.

(** An unfitted classifier that offers [predict_proba]. *)
Definition soft : classifier :=
  {| learned := None; proba := true; importances := None |}.

(** A fitted one with the importance scores 0.1, 0.5, 0.4. *)
Definition forest : classifier :=
  {| learned := Some 1; proba := true; importances := Some [1 # 10; 1 # 2; 2 # 5]%Q |}.

(** The chart of [forest]'s scores under the names a, b, c. *)
Definition chart : Axes Q :=
  {| bars := [("b", [1 # 2]); ("c", [2 # 5]); ("a", [1 # 10])]%Q;
     xtick_rotation := Some 90;
     title := "Feature importance plot" |}.

(** The chart of the same scores under the names a, a, b: the two rows
    named a share one bar. *)
Definition chart_repeated : Axes Q :=
  {| bars := [("a", [1 # 2; 1 # 10]); ("b", [2 # 5])]%Q;
     xtick_rotation := Some 90;
     title := "Feature importance plot" |}.

End Sample.

(** ** A test double that raises

    The majority double with one collaborator made to raise: [predict],
    [confusion_matrix] or [roc_auc_score], or all of them left alone. *)
Module Faulty.

Definition broken (what : string) : Exn := OtherError "Broken" what.

Definition failing (what : string)
    : Collaborators (list Z) Majority.classifier Q (list Q) :=
  let base := Majority.double in
  {| type_name := @type_name _ _ _ _ base;
     hasattr := @hasattr _ _ _ _ base;
     fit := @fit _ _ _ _ base;
     predict := fun o X =>
       if String.eqb what "predict" then (inl (broken what), o)
       else @predict _ _ _ _ base o X;
     predict_proba := @predict_proba _ _ _ _ base;
     feature_importances_ := @feature_importances_ _ _ _ _ base;
     cross_val_score := @cross_val_score _ _ _ _ base;
     classification_report := @classification_report _ _ _ _ base;
     confusion_matrix := fun y_true y_pred =>
       if String.eqb what "confusion_matrix" then inl (broken what)
       else @confusion_matrix _ _ _ _ base y_true y_pred;
     roc_curve := @roc_curve _ _ _ _ base;
     roc_auc_score := fun y_true y_score =>
       if String.eqb what "roc_auc_score" then inl (broken what)
       else @roc_auc_score _ _ _ _ base y_true y_score;
     mean := @mean _ _ _ _ base;
     std := @std _ _ _ _ base;
     column_1 := @column_1 _ _ _ _ base;
     str_of_data := @str_of_data _ _ _ _ base;
     format_f := @format_f _ _ _ _ base;
     sort_values_desc := @sort_values_desc _ _ _ _ base;
     load_backend := @load_backend _ _ _ _ base |}.

End Faulty.

(** ** Predicates of the properties *)

Section Vocabulary.
Context {Data Obj Score Scores : Type} `{Collaborators Data Obj Score Scores}.

(** Cross-validation mode has done its work: for each of the four metrics
    the cross-validation over [(X, y)] with [cv] folds was run with that
    metric as scoring, and a line with the metric's name, the mean and the
    standard deviation of the scores it returned was printed. *)
Definition reports_cross_validation (out : @Outcome Data Obj unit)
    (X y : Data) (cv : Z) : Prop :=
  ∀ name scorer, (name, scorer) ∈ scorers →
    Call_cross_val_score X y scorer cv ∈ trace out ∧
    ∃ est cv_score est',
      cross_val_score est X y scorer cv = (inr cv_score, est') ∧
      Call_print (report_line name cv_score) ∈ trace out.

(** Console output, and the cross-validation runs that produce what is
    printed. *)
Definition console_or_cross_val (ev : Event Data) : Prop :=
  match ev with
  | Call_cross_val_score _ _ _ _ | Call_print _ => True
  | _ => False
  end.

(** The events of the plain report: fit, predict and console output.  The
    ROC computation ([predict_proba], [roc_curve], [roc_auc_score]) and every
    call into the plotting library are not among them. *)
Definition plain_report (ev : Event Data) : Prop :=
  match ev with
  | Call_fit _ _ | Call_predict _ | Call_print _ => True
  | _ => False
  end.

(** The events of the metrics [done], each run followed by its printed
    line, [scores] being what the runs returned. *)
Definition reported (X y : Data) (cv : Z) (done : list (string * metric))
    (scores : list Scores) : list (Event Data) :=
  flat_map (λ p, [ Call_cross_val_score X y p.1.2 cv;
                   Call_print (report_line p.1.1 p.2) ])
    (zip done scores).

(** Calls into the plotting library. *)
Definition is_plot (ev : Event Data) : bool :=
  match ev with
  | Plt_switch_backend _ | Plt_plot_curve _ _ _ _ | Plt_plot_line _ _ _ _
  | Plt_xlabel _ | Plt_ylabel _ | Plt_title _ | Plt_subplots => true
  | _ => false
  end.

(** The five plotting calls of the ROC plot, in the order of the source. *)
Definition roc_plot_events (fpr tpr : Data) (roc_auc : Score) : list (Event Data) :=
  [ Plt_plot_curve fpr tpr "darkorange"
      ("ROC curve (AUC = " +:+ format_f 2 roc_auc +:+ ")");
    Plt_plot_line [0; 1] [0; 1] "navy" "--";
    Plt_xlabel "False Positive Rate";
    Plt_ylabel "True Positive Rate";
    Plt_title "Receiver Operating Characteristic Curve" ].

(** A computation that leaves the estimator as it found it. *)
Definition preserves {A} (m : @M Data Obj A) : Prop :=
  ∀ est, estimator_after (m est) = est.

(** A computation all of whose events satisfy [P]. *)
Definition emits_only (P : Event Data → Prop) {A} (m : @M Data Obj A) : Prop :=
  ∀ est, Forall P (trace (m est)).

End Vocabulary.

(** * Properties *)

(** ** Sequencing *)

Section Sequencing.
Context {Data Obj Score Scores : Type} `{Collaborators Data Obj Score Scores}.
Context {A B : Type} (m : @M Data Obj A) (k : A → @M Data Obj B).

Lemma bind_raised (est est1 : option Obj) (e : Exn) (t1 : list (Event Data)) :
  m est = (inl e, est1, t1) → (m ≫= k) est = (inl e, est1, t1).
Proof. unfold mbind, M_bind, bind. intros ->. reflexivity. Qed.

Lemma bind_returned (est est1 : option Obj) (a : A) (t1 : list (Event Data)) :
  m est = (inr a, est1, t1) →
  (m ≫= k) est
    = (result (k a est1), estimator_after (k a est1), t1 ++ trace (k a est1)).
Proof.
  unfold mbind, M_bind, bind. intros ->.
  destruct (k a est1) as [[r2 est2] t2]. reflexivity.
Qed.

(** What the first computation did stays at the head of the trace. *)
Lemma trace_bind (est : option Obj) :
  ∃ later, trace ((m ≫= k) est) = trace (m est) ++ later.
Proof.
  destruct (m est) as [[[e|a] est1] t1] eqn:Hm.
  - rewrite (bind_raised _ _ _ _ Hm). exists []. cbn. by rewrite app_nil_r.
  - rewrite (bind_returned _ _ _ _ Hm). eexists. reflexivity.
Qed.

(** Events of one kind before and after make events of that kind. *)
Lemma emits_only_bind (P : Event Data → Prop) :
  emits_only P m → (∀ a, emits_only P (k a)) → emits_only P (m ≫= k).
Proof.
  intros Hm Hk est. specialize (Hm est).
  destruct (m est) as [[[e|a] est1] t1] eqn:Hrun.
  - by rewrite (bind_raised _ _ _ _ Hrun).
  - rewrite (bind_returned _ _ _ _ Hrun). apply Forall_app. split; [done|apply Hk].
Qed.

End Sequencing.

Lemma emits_only_pure {Data Obj A : Type} (P : Event Data → Prop) (a : A) :
  @emits_only Data Obj P A (pure a).
Proof. intros est. constructor. Qed.

(** ** Argument validation of train_classifier *)

Section Validation.
Context {Data Obj Score Scores : Type} `{Collaborators Data Obj Score Scores}.

(** The first of the four data arguments that is [None], in the order the
    checks are written, decides the message; nothing else has happened. *)
Lemma first_null_argument_decides (X_train y_train X_val y_val : option Data)
    (estimator : option Obj) (cross_validate : bool) (cv : Z) (arg : string) :
  (X_train = None ∧ arg = "X_train") ∨
  (is_Some X_train ∧ y_train = None ∧ arg = "y_train") ∨
  (is_Some X_train ∧ is_Some y_train ∧ X_val = None ∧ arg = "X_val") ∨
  (is_Some X_train ∧ is_Some y_train ∧ is_Some X_val ∧ y_val = None ∧ arg = "y_val") →
  train_classifier X_train y_train X_val y_val estimator cross_validate cv
    = (inl (ValueError (arg +:+ " is None")), estimator, []).
Proof.
  intros Hnull. unfold train_classifier.
  destruct Hnull as [[-> ->] | [([xt ->] & -> & ->) | [([xt ->] & [yt ->] & -> & ->)
    | ([xt ->] & [yt ->] & [xv ->] & -> & ->)]]]; reflexivity.
Qed.

(** C5: with one of [X_train], [y_train], [X_val], [y_val] set to [None]
    and the other three valid, [train_classifier] raises the [ValueError]
    that names the missing argument; the trace is empty (nothing fitted,
    predicted or printed) and the estimator is untouched, in either mode. *)
Theorem null_argument_rejected (xt yt xv yv : Data) (estimator : option Obj)
    (cross_validate : bool) (cv : Z) :
  train_classifier None (Some yt) (Some xv) (Some yv) estimator cross_validate cv
    = (inl (ValueError "X_train is None"), estimator, []) ∧
  train_classifier (Some xt) None (Some xv) (Some yv) estimator cross_validate cv
    = (inl (ValueError "y_train is None"), estimator, []) ∧
  train_classifier (Some xt) (Some yt) None (Some yv) estimator cross_validate cv
    = (inl (ValueError "X_val is None"), estimator, []) ∧
  train_classifier (Some xt) (Some yt) (Some xv) None estimator cross_validate cv
    = (inl (ValueError "y_val is None"), estimator, []).
Proof.
  split; [|split; [|split]].
  - apply (first_null_argument_decides _ _ _ _ _ _ _ "X_train"). auto.
  - apply (first_null_argument_decides _ _ _ _ _ _ _ "y_train"). right; left; eauto.
  - apply (first_null_argument_decides _ _ _ _ _ _ _ "X_val").
    right; right; left; eauto.
  - apply (first_null_argument_decides _ _ _ _ _ _ _ "y_val").
    right; right; right; eauto 10.
Qed.

(** C9: cross-validation mode never reads the validation data, and still
    the checks of [X_val] and [y_val] come before the mode is looked at: with
    [cross_validate = True] and [X_val] or [y_val] set to [None] the call
    raises the null-argument [ValueError] and no cross-validation has run. *)
Theorem cross_validation_needs_validation_data (xt yt xv : Data)
    (y_val : option Data) (estimator : option Obj) (cv : Z) :
  train_classifier (Some xt) (Some yt) None y_val estimator true cv
    = (inl (ValueError "X_val is None"), estimator, []) ∧
  train_classifier (Some xt) (Some yt) (Some xv) None estimator true cv
    = (inl (ValueError "y_val is None"), estimator, []).
Proof.
  split.
  - apply (first_null_argument_decides _ _ _ _ _ _ _ "X_val").
    right; right; left; eauto.
  - apply (first_null_argument_decides _ _ _ _ _ _ _ "y_val").
    right; right; right; eauto 10.
Qed.

(** Once the four data arguments are there, the call is the body of the
    chosen mode: the estimator is not looked at before. *)
Lemma validation_passed (xt yt xv yv : Data) (estimator : option Obj)
    (cross_validate : bool) (cv : Z) :
  train_classifier (Some xt) (Some yt) (Some xv) (Some yv) estimator cross_validate cv
    = if cross_validate
      then cross_validation_loop scorers xt yt cv estimator
      else single_fit xt yt xv yv estimator.
Proof.
  unfold train_classifier, mbind, M_bind, bind, require_not_none, pure.
  destruct cross_validate.
  - destruct (cross_validation_loop scorers xt yt cv estimator) as [[r e] t].
    reflexivity.
  - destruct (single_fit xt yt xv yv estimator) as [[r e] t]. reflexivity.
Qed.

Lemma cross_validation_loop_cons (metric_name : string) (scorer : metric)
    (rest : list (string * metric)) (X_train y_train : Data) (cv : Z) :
  cross_validation_loop ((metric_name, scorer) :: rest) X_train y_train cv
    = (call_cross_val_score X_train y_train scorer cv ≫= λ cv_score,
         print (report_line metric_name cv_score);;
         cross_validation_loop rest X_train y_train cv).
Proof. reflexivity. Qed.

(** C10: the estimator is not checked for [None].  With the four data
    arguments there and [estimator = None], single-fit mode gets as far as
    [estimator.fit] and fails there with an [AttributeError]; cross-validation
    mode gets as far as the first [cross_val_score] call, which receives
    [None], and when that call raises, its exception is the one that leaves
    [train_classifier]. *)
Theorem null_estimator_not_checked (xt yt xv yv : Data) (cv : Z) :
  train_classifier (Some xt) (Some yt) (Some xv) (Some yv) None false cv
    = (inl (AttributeError "NoneType" "fit"), None, []) ∧
  (∃ later,
     trace (train_classifier (Some xt) (Some yt) (Some xv) (Some yv) None true cv)
       = Call_cross_val_score xt yt accuracy_score cv :: later) ∧
  match cross_val_score None xt yt accuracy_score cv with
  | (inl e, est') =>
      train_classifier (Some xt) (Some yt) (Some xv) (Some yv) None true cv
        = (inl e, est', [Call_cross_val_score xt yt accuracy_score cv])
  | (inr _, _) => True
  end.
Proof.
  split; [reflexivity|].
  rewrite validation_passed. unfold scorers.
  rewrite cross_validation_loop_cons.
  split.
  - match goal with |- context [trace ((?m ≫= ?k) None)] =>
      destruct (trace_bind m k None) as [later ->] end.
    exists later. unfold call_cross_val_score.
    by destruct (cross_val_score None xt yt accuracy_score cv).
  - destruct (cross_val_score None xt yt accuracy_score cv) as [[e|cv_score] est']
      eqn:Hcall; [|exact I].
    apply bind_raised. unfold call_cross_val_score. by rewrite Hcall.
Qed.

End Validation.

(** ** feature_importance *)

(** Neither the module nor the builtins bind [col_names]. *)
Lemma col_names_unbound : resolve module_globals "col_names" = inl (NameError "col_names").
Proof. vm_compute. reflexivity. Qed.

Section FeatureImportance.
Context {Data Obj Score Scores : Type} `{Collaborators Data Obj Score Scores}.

(** The function as it is written, on every input: without the attribute
    the first check raises; with it, the second check cannot be evaluated,
    because the name it tests is not bound.  The argument [col_name] plays
    no part. *)
Lemma feature_importance_as_written (estimator : option Obj) (col_name : pyval) :
  feature_importance estimator col_name
    = if exposes estimator "feature_importances_"
      then (inl (NameError "col_names"), estimator, [])
      else (inl (ValueError no_importances_msg), estimator, []).
Proof.
  unfold feature_importance, feature_importance_in.
  rewrite (bind_returned _ _ estimator estimator
             (exposes estimator "feature_importances_") []) by reflexivity.
  destruct (exposes estimator "feature_importances_"); cbn [negb]; [|reflexivity].
  rewrite (bind_raised _ _ estimator estimator (NameError "col_names") []);
    [reflexivity|].
  unfold lift. by rewrite col_names_unbound.
Qed.

(** X10: In a namespace that binds [col_names] to a list as long as the
    importance scores, one figure is created and returned with its axes.  The
    table of names and scores is sorted by pandas and handed to seaborn: the
    axes hold one bar per distinct name of the sorted table, in the order of
    first appearance, each over the scores of the rows with that name; the
    tick labels are rotated by 90 and the title is set.  No plot is shown or
    saved, and the estimator is as before. *)
Lemma feature_importance_with_bound_names (globals : gmap string pyval)
    (o : Obj) (names : list string) (col_name : pyval) :
  hasattr o "feature_importances_" = true →
  globals !! "col_names" = Some (PyList names) →
  length names = length (feature_importances_ o) →
  feature_importance_in globals (Some o) col_name
    = (inr ({| fig_axes :=
                 {| bars := group_rows
                              (sort_values_desc (zip names (feature_importances_ o)));
                    xtick_rotation := Some 90;
                    title := "Feature importance plot" |} |},
            {| bars := group_rows
                         (sort_values_desc (zip names (feature_importances_ o)));
               xtick_rotation := Some 90;
               title := "Feature importance plot" |}),
       Some o, [Plt_subplots]).
Proof.
  intros Hattr Hbound Hlen.
  unfold feature_importance_in, names_mismatch.
  unfold mbind, M_bind, bind, py_hasattr, lift, resolve.
  cbn [exposes]. rewrite Hattr, Hbound.
  cbn [negb isinstance_list list_items get_feature_importances pure].
  rewrite Hlen, Nat.eqb_refl. reflexivity.
Qed.

(** A row whose name has no bar yet opens one, behind the bars there are. *)
Lemma add_row_fresh (name : string) (importance : Score)
    (levels : list (string * list Score)) :
  name ∉ levels.*1 →
  add_row name importance levels = levels ++ [(name, [importance])].
Proof.
  induction levels as [|[level rows] rest IH]; intros Hfresh; [reflexivity|].
  cbn in *. apply not_elem_of_cons in Hfresh as [Hne Hrest].
  destruct (String.eqb_spec level name) as [->|_]; [done|].
  by rewrite IH.
Qed.

(** With no name repeated, seaborn draws the rows one by one: every bar
    stands for one row, in the order of the table. *)
Lemma group_rows_distinct (feats_imp : list (string * Score)) :
  NoDup feats_imp.*1 →
  group_rows feats_imp = (λ row, (row.1, [row.2])) <$> feats_imp.
Proof.
  unfold group_rows.
  enough (Hgen : ∀ levels : list (string * list Score),
             NoDup (levels.*1 ++ feats_imp.*1) →
             foldl (λ levels row, add_row row.1 row.2 levels) levels feats_imp
               = levels ++ ((λ row, (row.1, [row.2])) <$> feats_imp)).
  { intros Hnodup. by apply (Hgen []). }
  induction feats_imp as [|[name importance] rest IH]; intros levels Hnodup.
  - by rewrite app_nil_r.
  - cbn in *. apply NoDup_app in Hnodup as (Hlevels & Hdisjoint & Hrest).
    rewrite add_row_fresh by (intros Hin; apply (Hdisjoint _ Hin); left).
    rewrite IH.
    + by rewrite <- app_assoc.
    + rewrite fmap_app. cbn. rewrite <- app_assoc. cbn.
      apply NoDup_app. split; [done|]. split; [|done].
      intros x Hin. by apply Hdisjoint.
Qed.

(** C6: an estimator without the [feature_importances_] attribute ([None]
    included) makes [feature_importance] raise the [ValueError] of its first
    check; no table was built and no figure created. *)
Theorem missing_importances_rejected (estimator : option Obj) (col_name : pyval) :
  exposes estimator "feature_importances_" = false →
  feature_importance estimator col_name
    = (inl (ValueError
         "The estimator does not have a 'feature_importances_' attribute."),
       estimator, []).
Proof. intros Hattr. rewrite feature_importance_as_written, Hattr. reflexivity. Qed.

End FeatureImportance.

Lemma missing_importances_rejected_witness :
  exposes (Some Sample.clf) "feature_importances_" = false ∧
  feature_importance (Some Sample.clf) (PyList ["a"; "b"; "c"])
    = (inl (ValueError
         "The estimator does not have a 'feature_importances_' attribute."),
       Some Sample.clf, []).
Proof.
  split; [reflexivity|].
  apply (missing_importances_rejected (Some Sample.clf)). reflexivity.
Defined.

(** C2: a name list shorter than the importance scores, or an argument that
    is no list at all, given with an estimator that has three scores: the
    call raises [NameError] for [col_names], not the [ValueError] of the
    length check (no figure is created). *)
Theorem wrong_names_raise_NameError :
  feature_importance (Some Sample.forest) (PyList ["a"; "b"])
    = (inl (NameError "col_names"), Some Sample.forest, []) ∧
  feature_importance (Some Sample.forest) (PyStr "abc")
    = (inl (NameError "col_names"), Some Sample.forest, []).
Proof. split; rewrite feature_importance_as_written; reflexivity. Qed.

(** C3: the scores 0.1, 0.5, 0.4 with the names a, b, c: the call raises
    [NameError] for [col_names]; no table is sorted, no figure is created and
    nothing is returned. *)
Theorem matching_names_raise_NameError :
  feature_importance (Some Sample.forest) (PyList ["a"; "b"; "c"])
    = (inl (NameError "col_names"), Some Sample.forest, []).
Proof. rewrite feature_importance_as_written. reflexivity. Qed.

(** The same call in a namespace that binds [col_names] to the names, with
    a stable descending sort in the place of pandas: the table is b, c, a
    with 0.5, 0.4, 0.1. *)
Example importance_chart_in_patched_namespace :
  feature_importance_in (<["col_names" := PyList ["a"; "b"; "c"]]> module_globals)
    (Some Sample.forest) PyNone
    = (inr ({| fig_axes := Sample.chart |}, Sample.chart),
       Some Sample.forest, [Plt_subplots]).
Proof.
  rewrite (feature_importance_with_bound_names _ _ ["a"; "b"; "c"]);
    [reflexivity| reflexivity | apply lookup_insert_eq | reflexivity].
Defined.

(** With the names a, a, b the two rows named a are drawn as one bar. *)
Example importance_chart_with_repeated_name :
  feature_importance_in (<["col_names" := PyList ["a"; "a"; "b"]]> module_globals)
    (Some Sample.forest) PyNone
    = (inr ({| fig_axes := Sample.chart_repeated |}, Sample.chart_repeated),
       Some Sample.forest, [Plt_subplots]).
Proof. reflexivity. Qed.

(** ** Importing the module *)

Section ModuleLoad.
Context {Data Obj Score Scores : Type} `{Collaborators Data Obj Score Scores}.

(** X11: Off Darwin the backend is switched to Agg, once, and the import goes
    through when matplotlib loads that backend. *)
Lemma import_elsewhere (system : string) :
  system ≠ "Darwin" →
  import_module system = (load_backend "Agg", None, [Plt_switch_backend "Agg"]).
Proof.
  intros Hsys. unfold import_module.
  destruct (String.eqb_spec system "Darwin") as [->|_]; [done|].
  cbn. by destruct (load_backend "Agg").
Qed.

(** C4: on Darwin the module calls [plt.switch_backend()] without a backend
    name; the call does not match the function's signature, so the import
    ends with a [TypeError] and no backend has been selected. *)
Theorem import_on_Darwin_fails :
  import_module "Darwin"
    = (inl (TypeError
         "switch_backend() missing 1 required positional argument: 'newbackend'"),
       None, []).
Proof. reflexivity. Qed.

End ModuleLoad.

(** ** Single-fit mode *)

Section SingleFit.
Context {Data Obj Score Scores : Type} `{Collaborators Data Obj Score Scores}.

Lemma call_method_returned {A} (attr : string) (ev : Event Data)
    (method : Obj → (Exn + A) * Obj) (o o' : Obj) (r : Exn + A) :
  hasattr o attr = true → method o = (r, o') →
  call_method attr ev method (Some o) = (r, Some o', [ev]).
Proof. unfold call_method. intros -> ->. reflexivity. Qed.

(** C7: an estimator that has no [predict_proba] when the module asks for
    it.  In single-fit mode, with fit, predict, the classification report and
    the confusion matrix all returning, [train_classifier] returns [None]
    after exactly four events: the fit, the prediction, the printed report and
    the printed confusion matrix.  There is no call of [predict_proba], of
    [roc_curve] or [roc_auc_score], and no call into the plotting library. *)
Theorem single_fit_without_predict_proba (xt yt xv yv y_pred cm : Data)
    (o fitted o' : Obj) (report : string) (cv : Z) :
  hasattr o "fit" = true → fit o xt yt = (inr tt, fitted) →
  hasattr fitted "predict" = true → predict fitted xv = (inr y_pred, o') →
  classification_report yv y_pred = inr report →
  confusion_matrix yv y_pred = inr cm →
  hasattr o' "predict_proba" = false →
  train_classifier (Some xt) (Some yt) (Some xv) (Some yv) (Some o) false cv
    = (inr tt, Some o',
       [ Call_fit xt yt;
         Call_predict xv;
         Call_print report;
         Call_print ("Confusion Matrix:" +:+ newline +:+ " " +:+ str_of_data cm) ]).
Proof.
  intros Hfit_attr Hfit Hpredict_attr Hpredict Hreport Hcm Hproba.
  rewrite validation_passed. unfold single_fit.
  rewrite (bind_returned _ _ (Some o) (Some fitted) tt [Call_fit xt yt])
    by (by apply call_method_returned).
  rewrite (bind_returned _ _ (Some fitted) (Some o') y_pred [Call_predict xv])
    by (by apply call_method_returned).
  unfold mbind, M_bind, bind, lift, print, emit, py_hasattr, pure.
  rewrite Hreport, Hcm. cbn [exposes]. rewrite Hproba. reflexivity.
Qed.

(** Whatever fit, predict and the two metrics do (return or raise): as long
    as the estimator shows no [predict_proba], single-fit mode attempts no ROC
    computation and makes no plot call. *)
Lemma no_roc_without_predict_proba (X_train y_train X_val y_val : option Data)
    (estimator : option Obj) (cv : Z) :
  (∀ o, hasattr o "predict_proba" = false) →
  Forall plain_report
    (trace (train_classifier X_train y_train X_val y_val estimator false cv)).
Proof.
  intros Hnone.
  destruct X_train as [xt|], y_train as [yt|], X_val as [xv|], y_val as [yv|];
    try by constructor.
  rewrite validation_passed. revert estimator. unfold single_fit.
  assert (Hcall : ∀ A attr ev (method : Obj → (Exn + A) * Obj),
            plain_report ev → emits_only plain_report (call_method attr ev method)).
  { intros A attr ev method Hev [o|]; unfold call_method; [|constructor].
    destruct (hasattr o attr); [|constructor].
    destruct (method o). by repeat constructor. }
  assert (Hlift : ∀ A (r : Exn + A), @emits_only Data Obj plain_report A (lift r))
    by (intros A r est; cbn; constructor).
  assert (Hprint : ∀ text, @emits_only Data Obj plain_report unit (print text))
    by (intros text est; cbn; by repeat constructor).
  apply emits_only_bind; [by apply Hcall|intros _].
  apply emits_only_bind; [by apply Hcall|intros y_pred].
  apply emits_only_bind; [apply Hlift|intros report].
  apply emits_only_bind; [apply Hprint|intros _].
  apply emits_only_bind; [apply Hlift|intros cm].
  apply emits_only_bind; [apply Hprint|intros _].
  intros est. unfold mbind, M_bind, bind, py_hasattr.
  assert (exposes est "predict_proba" = false) as ->
    by (destruct est; [apply Hnone|reflexivity]).
  constructor.
Qed.

End SingleFit.

Lemma single_fit_without_predict_proba_witness :
  train_classifier (Some Sample.X) (Some Sample.y) (Some Sample.X) (Some Sample.y)
    (Some Sample.clf) false 5
    = (inr tt,
       Some {| Majority.learned := Some 1; Majority.proba := false;
               Majority.importances := None |},
       [ Call_fit Sample.X Sample.y;
         Call_predict Sample.X;
         Call_print "accuracy 0.70";
         Call_print ("Confusion Matrix:" +:+ newline +:+ " 3 7") ]).
Proof.
  refine (single_fit_without_predict_proba Sample.X Sample.y Sample.X Sample.y
            [1; 1; 1; 1; 1; 1; 1; 1; 1; 1] [3; 7] Sample.clf
            {| Majority.learned := Some 1; Majority.proba := false;
               Majority.importances := None |}
            {| Majority.learned := Some 1; Majority.proba := false;
               Majority.importances := None |}
            "accuracy 0.70" 5 _ _ _ _ _ _ _);
    reflexivity.
Defined.

(** ** Cross-validation mode *)

Section CrossValidation.
Context {Data Obj Score Scores : Type} `{Collaborators Data Obj Score Scores}.

(** One turn of the loop whose cross-validation returns: the call, the
    printed line, then the remaining metrics on the estimator as the call
    left it. *)
Lemma cross_validation_loop_step (metric_name : string) (scorer : metric)
    (rest : list (string * metric)) (X_train y_train : Data) (cv : Z)
    (est est1 : option Obj) (cv_score : Scores) :
  cross_val_score est X_train y_train scorer cv = (inr cv_score, est1) →
  cross_validation_loop ((metric_name, scorer) :: rest) X_train y_train cv est
    = (result (cross_validation_loop rest X_train y_train cv est1),
       estimator_after (cross_validation_loop rest X_train y_train cv est1),
       Call_cross_val_score X_train y_train scorer cv
         :: Call_print (report_line metric_name cv_score)
         :: trace (cross_validation_loop rest X_train y_train cv est1)).
Proof.
  intros Hcall. rewrite cross_validation_loop_cons.
  rewrite (bind_returned _ _ est est1 cv_score
             [Call_cross_val_score X_train y_train scorer cv])
    by (unfold call_cross_val_score; by rewrite Hcall).
  rewrite (bind_returned _ _ est1 est1 tt [Call_print (report_line metric_name cv_score)])
    by reflexivity.
  reflexivity.
Qed.

(** One turn whose cross-validation raises ends the loop: later metrics
    are not tried. *)
Lemma cross_validation_loop_raised (metric_name : string) (scorer : metric)
    (rest : list (string * metric)) (X_train y_train : Data) (cv : Z)
    (est est1 : option Obj) (e : Exn) :
  cross_val_score est X_train y_train scorer cv = (inl e, est1) →
  cross_validation_loop ((metric_name, scorer) :: rest) X_train y_train cv est
    = (inl e, est1, [Call_cross_val_score X_train y_train scorer cv]).
Proof.
  intros Hcall. rewrite cross_validation_loop_cons.
  apply bind_raised. unfold call_cross_val_score. by rewrite Hcall.
Qed.

(** C1: the four data arguments are there, and scikit-learn answers the
    first run as it answers every bare metric function given as [scoring]:
    with an exception.  Then [train_classifier] in cross-validation mode
    raises that exception after the one call for Accuracy.  No metric has
    been cross-validated, no line has been printed, the three other metrics
    are never tried: the report of the four metrics is not produced. *)
Theorem refused_scoring_ends_cross_validation (xt yt xv yv : Data)
    (estimator est' : option Obj) (cv : Z) (e : Exn) :
  cross_val_score estimator xt yt accuracy_score cv = (inl e, est') →
  train_classifier (Some xt) (Some yt) (Some xv) (Some yv) estimator true cv
    = (inl e, est', [Call_cross_val_score xt yt accuracy_score cv]) ∧
  ¬ reports_cross_validation
      (train_classifier (Some xt) (Some yt) (Some xv) (Some yv) estimator true cv)
      xt yt cv.
Proof.
  intros Hrefused.
  assert (train_classifier (Some xt) (Some yt) (Some xv) (Some yv) estimator true cv
            = (inl e, est', [Call_cross_val_score xt yt accuracy_score cv])) as Hout.
  { rewrite validation_passed. unfold scorers.
    by apply cross_validation_loop_raised. }
  split; [exact Hout|].
  rewrite Hout. intros Hreports.
  destruct (Hreports "Accuracy" accuracy_score) as [_ (est0 & cv_score & est1 & _ & Hline)];
    [set_solver|].
  unfold trace in Hline; cbn [snd] in Hline.
  apply elem_of_cons in Hline as [?|Hline]; [discriminate|].
  by apply elem_of_nil in Hline.
Qed.

End CrossValidation.

Lemma refused_scoring_ends_cross_validation_witness :
  train_classifier (Some Sample.X) (Some Sample.y) (Some Sample.X) (Some Sample.y)
    (Some Sample.clf) true 5
    = (inl (Majority.not_a_scorer accuracy_score), Some Sample.clf,
       [Call_cross_val_score Sample.X Sample.y accuracy_score 5]).
Proof.
  refine (proj1 (refused_scoring_ends_cross_validation Sample.X Sample.y
            Sample.X Sample.y (Some Sample.clf) (Some Sample.clf) 5
            (Majority.not_a_scorer accuracy_score) _)).
  reflexivity.
Defined.

(** ** What is mutated *)

Create HintDb frame discriminated.

Section Frame.
Context {Data Obj Score Scores : Type} `{Collaborators Data Obj Score Scores}.

Lemma preserves_pure {A} (a : A) : @preserves Data Obj A (pure a).
Proof. intros est. reflexivity. Qed.

Lemma preserves_raise {A} (e : Exn) : @preserves Data Obj A (raise e).
Proof. intros est. reflexivity. Qed.

Lemma preserves_emit (ev : Event Data) : @preserves Data Obj unit (emit ev).
Proof. intros est. reflexivity. Qed.

Lemma preserves_lift {A} (r : Exn + A) : @preserves Data Obj A (lift r).
Proof. intros est. reflexivity. Qed.

Lemma preserves_py_hasattr (attr : string) :
  @preserves Data Obj bool (py_hasattr attr).
Proof. intros est. reflexivity. Qed.

Lemma preserves_get_feature_importances :
  @preserves Data Obj (list Score) get_feature_importances.
Proof. intros [o|]; reflexivity. Qed.

(** After a computation whose continuation leaves the estimator alone, the
    estimator is as the first step left it. *)
Lemma estimator_after_bind {A B} (m : @M Data Obj A) (k : A → @M Data Obj B)
    (est : option Obj) :
  (∀ a, preserves (k a)) →
  estimator_after ((m ≫= k) est) = estimator_after (m est).
Proof.
  intros Hk. destruct (m est) as [[[e|a] est1] t1] eqn:Hm.
  - by rewrite (bind_raised _ _ _ _ _ _ Hm).
  - rewrite (bind_returned _ _ _ _ _ _ Hm). apply Hk.
Qed.

Lemma preserves_bind {A B} (m : @M Data Obj A) (k : A → @M Data Obj B) :
  preserves m → (∀ a, preserves (k a)) → preserves (m ≫= k).
Proof. intros Hm Hk est. rewrite estimator_after_bind by done. apply Hm. Qed.

Lemma preserves_call_method {A} (attr : string) (ev : Event Data)
    (method : Obj → (Exn + A) * Obj) :
  (∀ o, (method o).2 = o) → preserves (call_method attr ev method).
Proof.
  intros Hmethod [o|]; [|reflexivity]. unfold call_method.
  destruct (hasattr o attr); [|reflexivity].
  specialize (Hmethod o). destruct (method o) as [r o']. cbn in *. by subst.
Qed.

End Frame.

#[global] Hint Resolve preserves_pure preserves_raise preserves_emit preserves_lift
  preserves_py_hasattr preserves_get_feature_importances preserves_bind
  preserves_call_method : frame.

Section Contracts.
Context {Data Obj Score Scores : Type} `{Collaborators Data Obj Score Scores}.

(** scikit-learn's side of the contract: [cross_val_score] works on clones
    of the estimator it is given, and [predict] and [predict_proba] only read
    the fitted state. *)
Hypothesis cross_val_score_clones :
  ∀ est X y scorer cv, (cross_val_score est X y scorer cv).2 = est.
Hypothesis predict_reads : ∀ o X, (predict o X).2 = o.
Hypothesis predict_proba_reads : ∀ o X, (predict_proba o X).2 = o.

Lemma preserves_call_cross_val_score (X y : Data) (scorer : metric) (cv : Z) :
  preserves (call_cross_val_score X y scorer cv).
Proof using cross_val_score_clones.
  intros est. unfold call_cross_val_score.
  specialize (cross_val_score_clones est X y scorer cv).
  by destruct (cross_val_score est X y scorer cv).
Qed.

Lemma preserves_cross_validation_loop (todo : list (string * metric))
    (X_train y_train : Data) (cv : Z) :
  preserves (cross_validation_loop todo X_train y_train cv).
Proof using cross_val_score_clones.
  induction todo as [|[metric_name scorer] rest IH]; [apply preserves_pure|].
  rewrite cross_validation_loop_cons.
  apply preserves_bind; [apply preserves_call_cross_val_score|].
  intros cv_score. apply preserves_bind; [apply preserves_emit|done].
Qed.

Lemma cross_validation_loop_console (todo : list (string * metric))
    (X_train y_train : Data) (cv : Z) :
  emits_only console_or_cross_val (cross_validation_loop todo X_train y_train cv).
Proof.
  induction todo as [|[metric_name scorer] rest IH]; [apply emits_only_pure|].
  rewrite cross_validation_loop_cons. apply emits_only_bind.
  - intros est. unfold call_cross_val_score.
    destruct (cross_val_score est X_train y_train scorer cv).
    by repeat constructor.
  - intros cv_score. apply emits_only_bind; [|done].
    intros est. by repeat constructor.
Qed.

Lemma preserves_roc_plot (X_val y_val : Data) : preserves (roc_plot X_val y_val).
Proof using predict_proba_reads.
  unfold roc_plot.
  apply preserves_bind.
  { apply preserves_call_method. intros o. apply predict_proba_reads. }
  intros probabilities. apply preserves_bind; [auto with frame|intros y_pred_proba].
  apply preserves_bind; [auto with frame|intros _].
  apply preserves_bind; [auto with frame|intros [[fpr tpr] thresholds]].
  repeat first [ apply preserves_bind; [auto with frame|intros ?]
               | solve [auto with frame] ].
Qed.

(** In single-fit mode everything after [fit] leaves the estimator alone. *)
Lemma single_fit_estimator (xt yt xv yv : Data) (est : option Obj) :
  estimator_after (single_fit xt yt xv yv est)
    = estimator_after
        (call_method "fit" (Call_fit xt yt) (λ o, fit o xt yt) est).
Proof using predict_reads predict_proba_reads.
  unfold single_fit. apply estimator_after_bind. intros _.
  apply preserves_bind.
  { apply preserves_call_method. intros o. apply predict_reads. }
  intros y_pred. apply preserves_bind; [auto with frame|intros report].
  apply preserves_bind; [apply preserves_emit|intros _].
  apply preserves_bind; [auto with frame|intros cm].
  apply preserves_bind; [apply preserves_emit|intros _].
  apply preserves_bind; [auto with frame|intros has_proba].
  destruct has_proba; [apply preserves_roc_plot|apply preserves_pure].
Qed.

(** C8: with scikit-learn keeping its side (cross-validation on clones,
    prediction reading only), cross-validation mode leaves the caller's
    estimator as it was and causes nothing but the cross-validation runs and
    console output: no fit on the caller's object, no call into the plotting
    library.  Over the whole module the estimator changes in one place only:
    when [train_classifier] ends with another estimator state than it began
    with, the call was in single-fit mode and the new state is the one
    [estimator.fit(X_train, y_train)] left.  And single-fit mode does fit in
    place: called with the four data arguments and an estimator that has
    [fit], it leaves the caller's estimator in the state that fit left,
    whether the later steps return or raise.  [feature_importance] never
    changes the estimator. *)
Theorem only_fit_mutates_estimator :
  (∀ (X_train y_train X_val y_val : option Data) (estimator : option Obj) (cv : Z),
     estimator_after
       (train_classifier X_train y_train X_val y_val estimator true cv) = estimator ∧
     Forall console_or_cross_val
       (trace (train_classifier X_train y_train X_val y_val estimator true cv))) ∧
  (∀ (X_train y_train X_val y_val : option Data) (estimator : option Obj)
     (cross_validate : bool) (cv : Z),
     estimator_after
       (train_classifier X_train y_train X_val y_val estimator cross_validate cv)
       = estimator ∨
     cross_validate = false ∧
     ∃ o xt yt, estimator = Some o ∧ X_train = Some xt ∧ y_train = Some yt ∧
       hasattr o "fit" = true ∧
       estimator_after
         (train_classifier X_train y_train X_val y_val estimator cross_validate cv)
         = Some (fit o xt yt).2) ∧
  (∀ (xt yt xv yv : Data) (o : Obj) (cv : Z),
     hasattr o "fit" = true →
     estimator_after
       (train_classifier (Some xt) (Some yt) (Some xv) (Some yv) (Some o) false cv)
       = Some (fit o xt yt).2) ∧
  (∀ (globals : gmap string pyval) (estimator : option Obj) (col_name : pyval),
     estimator_after (feature_importance_in globals estimator col_name) = estimator).
Proof using cross_val_score_clones predict_reads predict_proba_reads.
  split; [|split; [|split]].
  - intros [xt|] [yt|] [xv|] [yv|] estimator cv;
      try (split; [reflexivity|constructor]).
    rewrite validation_passed. split.
    + apply preserves_cross_validation_loop.
    + apply cross_validation_loop_console.
  - intros [xt|] [yt|] [xv|] [yv|] estimator cross_validate cv;
      try (left; reflexivity).
    rewrite validation_passed. destruct cross_validate.
    { left. apply preserves_cross_validation_loop. }
    rewrite single_fit_estimator. unfold call_method.
    destruct estimator as [o|]; [|by left].
    destruct (hasattr o "fit") eqn:Hfit; [|by left].
    right. split; [done|]. exists o, xt, yt.
    destruct (fit o xt yt) as [r o']. done.
  - intros xt yt xv yv o cv Hfit.
    rewrite validation_passed, single_fit_estimator. unfold call_method.
    rewrite Hfit. by destruct (fit o xt yt) as [r o'].
  - intros globals estimator col_name. unfold feature_importance_in.
    enough (Hpres : preserves (A:=Figure Score * Axes Score)
              (has ← py_hasattr "feature_importances_";
               if negb has then raise (ValueError no_importances_msg) else
               col_names ← lift (resolve globals "col_names");
               mismatch ← names_mismatch col_names;
               if mismatch : bool then raise (ValueError bad_col_names_msg) else
               importances ← get_feature_importances;
               importance_chart (list_items col_names) importances))
      by apply Hpres.
    apply preserves_bind; [auto with frame|intros has].
    destruct has; cbn [negb]; [|auto with frame].
    apply preserves_bind; [auto with frame|intros col_names].
    apply preserves_bind.
    { unfold names_mismatch. destruct (negb _); auto with frame. }
    intros mismatch. destruct mismatch; [auto with frame|].
    apply preserves_bind; [auto with frame|intros importances].
    unfold importance_chart. auto with frame.
Qed.

End Contracts.

(** The test double keeps the contracts. *)
Lemma double_cross_val_score_clones (est : option Majority.classifier)
    (X y : list Z) (scorer : metric) (cv : Z) :
  (cross_val_score est X y scorer cv).2 = est.
Proof.
  cbn. unfold Majority.k_fold. destruct est; [|reflexivity].
  by destruct (cv <? 2).
Qed.

Lemma double_predict_reads (o : Majority.classifier) (X : list Z) :
  (predict o X).2 = o.
Proof. cbn. by destruct (Majority.learned o). Qed.

Lemma double_predict_proba_reads (o : Majority.classifier) (X : list Z) :
  (predict_proba o X).2 = o.
Proof. cbn. by destruct (Majority.learned o). Qed.

Lemma only_fit_mutates_estimator_witness :
  estimator_after
    (train_classifier (Some Sample.X) (Some Sample.y) (Some Sample.X)
       (Some Sample.y) (Some Sample.clf) true 5) = Some Sample.clf ∧
  Forall console_or_cross_val
    (trace (train_classifier (Some Sample.X) (Some Sample.y) (Some Sample.X)
              (Some Sample.y) (Some Sample.clf) true 5)) ∧
  estimator_after
    (train_classifier (Some Sample.X) (Some Sample.y) (Some Sample.X)
       (Some Sample.y) (Some Sample.clf) false 5)
    = Some {| Majority.learned := Some 1; Majority.proba := false;
              Majority.importances := None |} ∧
  estimator_after
    (feature_importance_in module_globals (Some Sample.forest) (PyList ["a"]))
    = Some Sample.forest.
Proof.
  destruct (only_fit_mutates_estimator double_cross_val_score_clones
              double_predict_reads double_predict_proba_reads)
    as (Hcv & _ & Hfit & Hplot).
  destruct (Hcv (Some Sample.X) (Some Sample.y) (Some Sample.X) (Some Sample.y)
              (Some Sample.clf) 5) as [Hsame Hconsole].
  split; [exact Hsame|]. split; [exact Hconsole|].
  split; [|apply Hplot].
  exact (Hfit Sample.X Sample.y Sample.X Sample.y Sample.clf 5 eq_refl).
Defined.

(** * Further properties of the module *)

(** ** Single-fit mode: the ROC plot and the failures on the way *)

Section SingleFitPaths.
Context {Data Obj Score Scores : Type} `{Collaborators Data Obj Score Scores}.

(** X1: With an estimator that offers [predict_proba], and every collaborator
    returning, single-fit mode goes on after the two printed reports: column 1
    of [predict_proba(X_val)] is scored against [y_val] by [roc_curve] and
    [roc_auc_score], the curve is plotted in dark orange with the area to two
    decimals in its label, then the navy dashed diagonal, the two axis labels
    and the title.  Nothing is shown or saved, and the call returns [None]. *)
Theorem single_fit_with_predict_proba
    (xt yt xv yv y_pred cm probabilities y_pred_proba fpr tpr thresholds : Data)
    (o fitted o' o'' : Obj) (report : string) (roc_auc : Score) (cv : Z) :
  hasattr o "fit" = true → fit o xt yt = (inr tt, fitted) →
  hasattr fitted "predict" = true → predict fitted xv = (inr y_pred, o') →
  classification_report yv y_pred = inr report →
  confusion_matrix yv y_pred = inr cm →
  hasattr o' "predict_proba" = true →
  predict_proba o' xv = (inr probabilities, o'') →
  column_1 probabilities = inr y_pred_proba →
  roc_curve yv y_pred_proba = inr (fpr, tpr, thresholds) →
  roc_auc_score yv y_pred_proba = inr roc_auc →
  train_classifier (Some xt) (Some yt) (Some xv) (Some yv) (Some o) false cv
    = (inr tt, Some o'',
       [ Call_fit xt yt;
         Call_predict xv;
         Call_print report;
         Call_print ("Confusion Matrix:" +:+ newline +:+ " " +:+ str_of_data cm);
         Call_predict_proba xv;
         Call_roc_curve yv y_pred_proba;
         Call_roc_auc_score yv y_pred_proba;
         Plt_plot_curve fpr tpr "darkorange"
           ("ROC curve (AUC = " +:+ format_f 2 roc_auc +:+ ")");
         Plt_plot_line [0; 1] [0; 1] "navy" "--";
         Plt_xlabel "False Positive Rate";
         Plt_ylabel "True Positive Rate";
         Plt_title "Receiver Operating Characteristic Curve" ]).
Proof.
  intros Hfit_attr Hfit Hpredict_attr Hpredict Hreport Hcm
    Hproba_attr Hproba Hcolumn Hcurve Hauc.
  rewrite validation_passed. unfold single_fit.
  rewrite (bind_returned _ _ (Some o) (Some fitted) tt [Call_fit xt yt])
    by (by apply call_method_returned).
  rewrite (bind_returned _ _ (Some fitted) (Some o') y_pred [Call_predict xv])
    by (by apply call_method_returned).
  rewrite (bind_returned _ _ (Some o') (Some o') report []) by (by rewrite Hreport).
  rewrite (bind_returned _ _ (Some o') (Some o') tt [Call_print report])
    by reflexivity.
  rewrite (bind_returned _ _ (Some o') (Some o') cm []) by (by rewrite Hcm).
  rewrite (bind_returned _ _ (Some o') (Some o') tt
             [Call_print ("Confusion Matrix:" +:+ newline +:+ " " +:+ str_of_data cm)])
    by reflexivity.
  rewrite (bind_returned _ _ (Some o') (Some o') true [])
    by (unfold py_hasattr; cbn [exposes]; by rewrite Hproba_attr).
  unfold roc_plot.
  rewrite (bind_returned _ _ (Some o') (Some o'') probabilities [Call_predict_proba xv])
    by (by apply call_method_returned).
  unfold mbind, M_bind, bind, lift, emit, pure.
  rewrite Hcolumn, Hcurve, Hauc. reflexivity.
Qed.

(** X3: When [fit] raises, its exception leaves [train_classifier] as it is,
    with the estimator in the state [fit] left it in; nothing was predicted or
    printed. *)
Theorem fit_failure_propagates (xt yt xv yv : Data) (o o' : Obj) (e : Exn) (cv : Z) :
  hasattr o "fit" = true → fit o xt yt = (inl e, o') →
  train_classifier (Some xt) (Some yt) (Some xv) (Some yv) (Some o) false cv
    = (inl e, Some o', [Call_fit xt yt]).
Proof.
  intros Hfit_attr Hfit. rewrite validation_passed. unfold single_fit.
  apply bind_raised. by apply call_method_returned.
Qed.

(** X4: When [predict] raises after a fit that went through, the exception
    leaves [train_classifier] unchanged and the caller's estimator stays
    fitted: the call is not undone, and nothing was printed. *)
Theorem predict_failure_keeps_the_fit (xt yt xv yv : Data) (o fitted o' : Obj)
    (e : Exn) (cv : Z) :
  hasattr o "fit" = true → fit o xt yt = (inr tt, fitted) →
  hasattr fitted "predict" = true → predict fitted xv = (inl e, o') →
  train_classifier (Some xt) (Some yt) (Some xv) (Some yv) (Some o) false cv
    = (inl e, Some o', [Call_fit xt yt; Call_predict xv]).
Proof.
  intros Hfit_attr Hfit Hpredict_attr Hpredict.
  rewrite validation_passed. unfold single_fit.
  rewrite (bind_returned _ _ (Some o) (Some fitted) tt [Call_fit xt yt])
    by (by apply call_method_returned).
  rewrite (bind_raised _ _ (Some fitted) (Some o') e [Call_predict xv])
    by (by apply call_method_returned).
  reflexivity.
Qed.

(** X5: The classification report is printed before the confusion matrix is
    computed: when [confusion_matrix] raises, the report is already on the
    console, and neither the ROC computation nor a plot follows. *)
Theorem confusion_matrix_failure_after_report (xt yt xv yv y_pred : Data)
    (o fitted o' : Obj) (report : string) (e : Exn) (cv : Z) :
  hasattr o "fit" = true → fit o xt yt = (inr tt, fitted) →
  hasattr fitted "predict" = true → predict fitted xv = (inr y_pred, o') →
  classification_report yv y_pred = inr report →
  confusion_matrix yv y_pred = inl e →
  train_classifier (Some xt) (Some yt) (Some xv) (Some yv) (Some o) false cv
    = (inl e, Some o', [Call_fit xt yt; Call_predict xv; Call_print report]).
Proof.
  intros Hfit_attr Hfit Hpredict_attr Hpredict Hreport Hcm.
  rewrite validation_passed. unfold single_fit.
  rewrite (bind_returned _ _ (Some o) (Some fitted) tt [Call_fit xt yt])
    by (by apply call_method_returned).
  rewrite (bind_returned _ _ (Some fitted) (Some o') y_pred [Call_predict xv])
    by (by apply call_method_returned).
  rewrite (bind_returned _ _ (Some o') (Some o') report []) by (by rewrite Hreport).
  rewrite (bind_returned _ _ (Some o') (Some o') tt [Call_print report])
    by reflexivity.
  rewrite (bind_raised _ _ (Some o') (Some o') e []) by (by rewrite Hcm).
  reflexivity.
Qed.

End SingleFitPaths.

Lemma single_fit_with_predict_proba_witness :
  train_classifier (Some Sample.X) (Some Sample.y) (Some Sample.X) (Some Sample.y)
    (Some Sample.soft) false 5
    = (inr tt,
       Some {| Majority.learned := Some 1; Majority.proba := true;
               Majority.importances := None |},
       [ Call_fit Sample.X Sample.y;
         Call_predict Sample.X;
         Call_print "accuracy 0.70";
         Call_print ("Confusion Matrix:" +:+ newline +:+ " 3 7");
         Call_predict_proba Sample.X;
         Call_roc_curve Sample.y [1; 1; 1; 1; 1; 1; 1; 1; 1; 1];
         Call_roc_auc_score Sample.y [1; 1; 1; 1; 1; 1; 1; 1; 1; 1];
         Plt_plot_curve [0; 1] [0; 1] "darkorange" "ROC curve (AUC = 0.50)";
         Plt_plot_line [0; 1] [0; 1] "navy" "--";
         Plt_xlabel "False Positive Rate";
         Plt_ylabel "True Positive Rate";
         Plt_title "Receiver Operating Characteristic Curve" ]).
Proof.
  refine (single_fit_with_predict_proba Sample.X Sample.y Sample.X Sample.y
            [1; 1; 1; 1; 1; 1; 1; 1; 1; 1] [3; 7]
            [1; 1; 1; 1; 1; 1; 1; 1; 1; 1] [1; 1; 1; 1; 1; 1; 1; 1; 1; 1]
            [0; 1] [0; 1] [1; 0] Sample.soft
            {| Majority.learned := Some 1; Majority.proba := true;
               Majority.importances := None |}
            {| Majority.learned := Some 1; Majority.proba := true;
               Majority.importances := None |}
            {| Majority.learned := Some 1; Majority.proba := true;
               Majority.importances := None |}
            "accuracy 0.70" (1 # 2)%Q 5 _ _ _ _ _ _ _ _ _ _ _);
    reflexivity.
Defined.

Lemma fit_failure_propagates_witness :
  train_classifier (Some Sample.X) (Some []) (Some Sample.X) (Some Sample.y)
    (Some Sample.clf) false 5
    = (inl (ValueError "cannot fit on no samples"), Some Sample.clf,
       [Call_fit Sample.X []]).
Proof.
  refine (fit_failure_propagates Sample.X [] Sample.X Sample.y Sample.clf
            Sample.clf (ValueError "cannot fit on no samples") 5 _ _);
    reflexivity.
Defined.

Lemma predict_failure_keeps_the_fit_witness :
  @train_classifier _ _ _ _ (Faulty.failing "predict")
    (Some Sample.X) (Some Sample.y) (Some Sample.X) (Some Sample.y)
    (Some Sample.clf) false 5
    = (inl (Faulty.broken "predict"),
       Some {| Majority.learned := Some 1; Majority.proba := false;
               Majority.importances := None |},
       [Call_fit Sample.X Sample.y; Call_predict Sample.X]).
Proof.
  refine (@predict_failure_keeps_the_fit _ _ _ _ (Faulty.failing "predict")
            Sample.X Sample.y Sample.X Sample.y Sample.clf
            {| Majority.learned := Some 1; Majority.proba := false;
               Majority.importances := None |}
            {| Majority.learned := Some 1; Majority.proba := false;
               Majority.importances := None |}
            (Faulty.broken "predict") 5 _ _ _ _);
    reflexivity.
Defined.

Lemma confusion_matrix_failure_after_report_witness :
  @train_classifier _ _ _ _ (Faulty.failing "confusion_matrix")
    (Some Sample.X) (Some Sample.y) (Some Sample.X) (Some Sample.y)
    (Some Sample.clf) false 5
    = (inl (Faulty.broken "confusion_matrix"),
       Some {| Majority.learned := Some 1; Majority.proba := false;
               Majority.importances := None |},
       [Call_fit Sample.X Sample.y; Call_predict Sample.X;
        Call_print "accuracy 0.70"]).
Proof.
  refine (@confusion_matrix_failure_after_report _ _ _ _
            (Faulty.failing "confusion_matrix")
            Sample.X Sample.y Sample.X Sample.y [1; 1; 1; 1; 1; 1; 1; 1; 1; 1]
            Sample.clf
            {| Majority.learned := Some 1; Majority.proba := false;
               Majority.importances := None |}
            {| Majority.learned := Some 1; Majority.proba := false;
               Majority.importances := None |}
            "accuracy 0.70" (Faulty.broken "confusion_matrix") 5 _ _ _ _ _ _);
    reflexivity.
Defined.

Section Plotting.
Context {Data Obj Score Scores : Type} `{Collaborators Data Obj Score Scores}.

Lemma single_fit_plot (xt yt xv yv : Data) (estimator : option Obj) :
  Forall (λ ev, is_plot ev = false) (trace (single_fit xt yt xv yv estimator)) ∨
  (result (single_fit xt yt xv yv estimator) = inr tt ∧
   ∃ y_pred_proba fpr tpr thresholds roc_auc before,
     roc_curve yv y_pred_proba = inr (fpr, tpr, thresholds) ∧
     roc_auc_score yv y_pred_proba = inr roc_auc ∧
     trace (single_fit xt yt xv yv estimator)
       = before ++ roc_plot_events fpr tpr roc_auc ∧
     Forall (λ ev, is_plot ev = false) before).
Proof.
  unfold single_fit, roc_plot, mbind, M_bind, bind, call_method, lift, emit,
    print, py_hasattr, pure, trace, result.
  destruct estimator as [o|]; [|left; constructor].
  repeat (case_match; simplify_eq/=); try (left; repeat constructor; done).
  right. split; [done|].
  match goal with
  | Hcurve : roc_curve yv ?p = inr (?fpr, ?tpr, ?th),
    Hauc : roc_auc_score yv ?p = inr ?auc |- _ =>
      exists p, fpr, tpr, th, auc
  end.
  eexists [_; _; _; _; _; _; _].
  split; [done|]. split; [done|]. split; [reflexivity|]. by repeat constructor.
Qed.

(** X2: Whatever the collaborators do, [train_classifier] plots all of the ROC
    chart or nothing.  Either no call into the plotting library occurs
    (always so in cross-validation mode, and whenever a step up to
    [roc_auc_score] raises or [predict_proba] is missing), or the call is in
    single-fit mode, returns [None], and its last five events are the
    plotting calls, drawn from what [roc_curve] and [roc_auc_score] returned
    for [y_val]. *)
Theorem plot_complete_or_absent (X_train y_train X_val y_val : option Data)
    (estimator : option Obj) (cross_validate : bool) (cv : Z) :
  Forall (λ ev, is_plot ev = false)
    (trace (train_classifier X_train y_train X_val y_val estimator cross_validate cv)) ∨
  (cross_validate = false ∧
   result (train_classifier X_train y_train X_val y_val estimator cross_validate cv)
     = inr tt ∧
   ∃ yv y_pred_proba fpr tpr thresholds roc_auc before,
     y_val = Some yv ∧
     roc_curve yv y_pred_proba = inr (fpr, tpr, thresholds) ∧
     roc_auc_score yv y_pred_proba = inr roc_auc ∧
     trace (train_classifier X_train y_train X_val y_val estimator cross_validate cv)
       = before ++ roc_plot_events fpr tpr roc_auc ∧
     Forall (λ ev, is_plot ev = false) before).
Proof.
  destruct X_train as [xt|], y_train as [yt|], X_val as [xv|], y_val as [yv|];
    try (left; constructor).
  rewrite validation_passed. destruct cross_validate.
  - left. eapply Forall_impl; [apply cross_validation_loop_console|].
    by intros [].
  - destruct (single_fit_plot xt yt xv yv estimator)
      as [Hnone | (Hres & p & fpr & tpr & th & auc & before & Hc & Ha & Ht & Hb)].
    + by left.
    + right. split; [done|]. split; [done|].
      by exists yv, p, fpr, tpr, th, auc, before.
Qed.

End Plotting.

(** ** Cross-validation mode: the first failure ends the loop *)

Section CrossValidationFailure.
Context {Data Obj Score Scores : Type} `{Collaborators Data Obj Score Scores}.

Lemma cross_validation_loop_failure (todo : list (string * metric))
    (X_train y_train : Data) (cv : Z) (est est_end : option Obj) (e : Exn)
    (t : list (Event Data)) :
  cross_validation_loop todo X_train y_train cv est = (inl e, est_end, t) →
  ∃ done name scorer rest scores est0,
    todo = done ++ (name, scorer) :: rest ∧
    length scores = length done ∧
    cross_val_score est0 X_train y_train scorer cv = (inl e, est_end) ∧
    t = reported X_train y_train cv done scores
          ++ [Call_cross_val_score X_train y_train scorer cv].
Proof.
  revert est t.
  induction todo as [|[name scorer] rest IH]; intros est t Hrun; [done|].
  destruct (cross_val_score est X_train y_train scorer cv) as [[e'|cv_score] est1]
    eqn:Hcall.
  - rewrite (cross_validation_loop_raised _ _ _ _ _ _ _ _ _ Hcall) in Hrun.
    simplify_eq. by exists [], name, scorer, rest, [], est.
  - rewrite (cross_validation_loop_step _ _ _ _ _ _ _ _ _ Hcall) in Hrun.
    destruct (cross_validation_loop rest X_train y_train cv est1)
      as [[r est2] t2] eqn:Hrest.
    unfold result, estimator_after, trace in Hrun. simplify_eq/=.
    destruct (IH _ _ Hrest)
      as (done & name' & scorer' & rest' & scores & est0 & -> & Hlen & Hfail & ->).
    exists ((name, scorer) :: done), name', scorer', rest', (cv_score :: scores), est0.
    split; [done|]. split; [cbn; by rewrite Hlen|]. by split.
Qed.

(** X6: When [train_classifier] raises in cross-validation mode although the
    four data arguments are there, the exception is the one a
    [cross_val_score] run raised, unchanged.  The metrics before that run, in
    the order of the list, have each been run and printed; the failing run is
    the last event; the metrics after it are never tried. *)
Theorem cross_validation_stops_at_first_failure (xt yt xv yv : Data)
    (estimator : option Obj) (cv : Z) (e : Exn) :
  result (train_classifier (Some xt) (Some yt) (Some xv) (Some yv) estimator true cv)
    = inl e →
  ∃ done name scorer rest scores est0 est1,
    scorers = done ++ (name, scorer) :: rest ∧
    length scores = length done ∧
    cross_val_score est0 xt yt scorer cv = (inl e, est1) ∧
    train_classifier (Some xt) (Some yt) (Some xv) (Some yv) estimator true cv
      = (inl e, est1,
         reported xt yt cv done scores ++ [Call_cross_val_score xt yt scorer cv]).
Proof.
  rewrite validation_passed.
  destruct (cross_validation_loop scorers xt yt cv estimator) as [[r est1] t]
    eqn:Hrun.
  intros Hres. unfold result in Hres. cbn [fst] in Hres. subst r.
  destruct (cross_validation_loop_failure _ _ _ _ _ _ _ _ Hrun)
    as (done & name & scorer & rest & scores & est0 & Hsplit & Hlen & Hfail & ->).
  by exists done, name, scorer, rest, scores, est0, est1.
Qed.

End CrossValidationFailure.

Lemma cross_validation_stops_at_first_failure_witness :
  ∃ done name scorer rest scores est0 est1,
    scorers = done ++ (name, scorer) :: rest ∧
    length scores = length done ∧
    cross_val_score est0 Sample.X Sample.y scorer 5
      = (inl (Majority.not_a_scorer accuracy_score), est1) ∧
    train_classifier (Some Sample.X) (Some Sample.y) (Some Sample.X)
      (Some Sample.y) (Some Sample.clf) true 5
      = (inl (Majority.not_a_scorer accuracy_score), est1,
         reported Sample.X Sample.y 5 done scores
           ++ [Call_cross_val_score Sample.X Sample.y scorer 5]).
Proof.
  apply (cross_validation_stops_at_first_failure Sample.X Sample.y Sample.X
           Sample.y (Some Sample.clf) 5 (Majority.not_a_scorer accuracy_score)).
  reflexivity.
Defined.

(** ** Arguments: the order of the checks *)

Section Arguments.
Context {Data Obj Score Scores : Type} `{Collaborators Data Obj Score Scores}.

(** X7: With several data arguments set to [None], the one reported is the
    first in the order [X_train], [y_train], [X_val], [y_val], whatever the
    later ones are. *)
Theorem null_checks_in_order (xt yt xv : Data) (y_train X_val y_val : option Data)
    (estimator : option Obj) (cross_validate : bool) (cv : Z) :
  train_classifier None y_train X_val y_val estimator cross_validate cv
    = (inl (ValueError "X_train is None"), estimator, []) ∧
  train_classifier (Some xt) None X_val y_val estimator cross_validate cv
    = (inl (ValueError "y_train is None"), estimator, []) ∧
  train_classifier (Some xt) (Some yt) None y_val estimator cross_validate cv
    = (inl (ValueError "X_val is None"), estimator, []) ∧
  train_classifier (Some xt) (Some yt) (Some xv) None estimator cross_validate cv
    = (inl (ValueError "y_val is None"), estimator, []).
Proof.
  split; [|split; [|split]].
  - apply (first_null_argument_decides _ _ _ _ _ _ _ "X_train"). auto.
  - apply (first_null_argument_decides _ _ _ _ _ _ _ "y_train"). right; left; eauto.
  - apply (first_null_argument_decides _ _ _ _ _ _ _ "X_val").
    right; right; left; eauto.
  - apply (first_null_argument_decides _ _ _ _ _ _ _ "y_val").
    right; right; right; eauto 10.
Qed.

End Arguments.

(** ** feature_importance: as shipped, and with the name bound *)

Section FeatureImportanceBody.
Context {Data Obj Score Scores : Type} `{Collaborators Data Obj Score Scores}.

(** X8: As the module is written, [feature_importance] returns for no input:
    every call ends in an exception, with no figure created, and what is
    passed as [col_name] makes no difference to the outcome. *)
Theorem feature_importance_never_returns (estimator : option Obj) (col_name : pyval) :
  (∃ e, feature_importance estimator col_name = (inl e, estimator, [])) ∧
  feature_importance estimator col_name = feature_importance estimator PyNone.
Proof.
  rewrite !feature_importance_as_written.
  split; [|done]. destruct (exposes estimator "feature_importances_"); eauto.
Qed.

(** X9: The second check, in a namespace that does bind [col_names]: when the
    value is no list, or a list whose length differs from the number of
    importance scores, the call raises the [ValueError] of line 109 and no
    figure is created. *)
Theorem bound_names_mismatch_rejected (globals : gmap string pyval) (o : Obj)
    (v col_name : pyval) :
  hasattr o "feature_importances_" = true →
  globals !! "col_names" = Some v →
  isinstance_list v = false ∨
    length (list_items v) ≠ length (feature_importances_ o) →
  feature_importance_in globals (Some o) col_name
    = (inl (ValueError bad_col_names_msg), Some o, []).
Proof.
  intros Hattr Hbound Hbad.
  unfold feature_importance_in, names_mismatch.
  unfold mbind, M_bind, bind, py_hasattr, lift, resolve.
  cbn [exposes]. rewrite Hattr, Hbound. cbn [negb].
  destruct (isinstance_list v) eqn:Hlist; cbn [negb]; [|reflexivity].
  destruct Hbad as [?|Hlen]; [done|].
  cbn [get_feature_importances pure].
  apply Nat.eqb_neq in Hlen. rewrite Hlen. reflexivity.
Qed.

End FeatureImportanceBody.

Lemma bound_names_mismatch_rejected_witness :
  feature_importance_in (<["col_names" := PyList ["a"; "b"]]> module_globals)
    (Some Sample.forest) PyNone
    = (inl (ValueError bad_col_names_msg), Some Sample.forest, []).
Proof.
  apply (bound_names_mismatch_rejected _ _ (PyList ["a"; "b"])).
  - reflexivity.
  - apply lookup_insert_eq.
  - right. cbn. lia.
Defined.

Lemma import_elsewhere_witness :
  @import_module _ _ _ _ Majority.double "Linux"
    = (inr tt, None, [Plt_switch_backend "Agg"]) ∧
  @import_module _ _ _ _ Majority.double "darwin"
    = (inr tt, None, [Plt_switch_backend "Agg"]).
Proof.
  split.
  - apply (@import_elsewhere _ _ _ _ Majority.double "Linux"). discriminate.
  - apply (@import_elsewhere _ _ _ _ Majority.double "darwin"). discriminate.
Defined.
